(** * MCP tools manager of @tm/ai-tools: a shallow embedding

    Sources embedded here:
    - [packages/ai-sdk-tools/src/context7/types.ts]  (records of module [Context7])
    - [packages/ai-sdk-tools/src/context7/client.ts] (functions of module [Context7])
    - [packages/ai-sdk-tools/src/mcp-tools-manager.ts] (module [Manager])

    The TypeScript code reads [process.env], writes to the console, calls an
    external MCP client library and throws exceptions.  All of this is made
    explicit by a state-and-exception monad [Js] over a [World]. *)

From stdpp Require Import gmap strings list.

Open Scope string_scope.
Open Scope list_scope.

(** ** Exceptions and completions *)

(** Values that the code can throw.  [Context7ApiKeyError] is the class of
    client.ts; every other thrown value (a failed spawn, a failed handshake, a
    rejected [client.tools()] or [client.close()]) is an [ExternalError]. *)
Inductive JsError : Type :=
| Context7ApiKeyError
| ExternalError (reason : string).

(** How an evaluation (or an awaited promise) ends. *)
Inductive Completion (A : Type) : Type :=
| Normal (a : A)
| Thrown (e : JsError).
Arguments Normal {A} a.
Arguments Thrown {A} e.

Definition is_normal {A} (c : Completion A) : bool :=
  match c with Normal _ => true | Thrown _ => false end.

(** ** Data of context7/types.ts that does not mention tools *)

Record Context7Config : Type := { apiKey : option string }.

(** The argument of [new Experimental_StdioMCPTransport({command, args})]. *)
Record Transport : Type := { command : string; args : list string }.

(** ** The world *)

(** Call-count instrumentation: which operations ran, in order. *)
Inductive Call : Type :=
| ReadEnv                                              (* process.env.CONTEXT7_API_KEY evaluated *)
| CallIsContext7Available (config : option Context7Config)
| CallCreateContext7Tools (config : option Context7Config)
| CallCreateMCPClient (transport : Transport)          (* experimental_createMCPClient({transport}) *)
| CallClientTools (client : nat)                       (* client.tools() *)
| CallClientClose (client : nat).                      (* client.close() *)

Record World : Type := {
  process_env : option string;            (* process.env.CONTEXT7_API_KEY *)
  console : list (string * JsError);      (* console.warn(message, error) *)
  calls : list Call
}.

Definition record_call (c : Call) (w : World) : World :=
  {| process_env := process_env w; console := console w; calls := calls w ++ [c] |}.

Definition record_warn (msg : string) (e : JsError) (w : World) : World :=
  {| process_env := process_env w; console := console w ++ [(msg, e)]; calls := calls w |}.

(** ** The monad *)

Definition Js (A : Type) : Type := World → Completion A * World.

Definition ret {A} (a : A) : Js A := λ w, (Normal a, w).

Definition bind {A B} (m : Js A) (k : A → Js B) : Js B :=
  λ w, match m w with
       | (Normal a, w') => k a w'
       | (Thrown e, w') => (Thrown e, w')
       end.

Definition throw {A} (e : JsError) : Js A := λ w, (Thrown e, w).

(** [try { body } catch (error) { handler }]: what [body] did to the world
    before it threw stays done. *)
Definition try_catch {A} (body : Js A) (handler : JsError → Js A) : Js A :=
  λ w, match body w with
       | (Normal a, w') => (Normal a, w')
       | (Thrown e, w') => handler e w'
       end.

(** Settle with a completion decided outside the program. *)
Definition settle {A} (c : Completion A) : Js A := λ w, (c, w).

Definition log (c : Call) : Js unit := λ w, (Normal (), record_call c w).

Definition console_warn (msg : string) (e : JsError) : Js unit :=
  λ w, (Normal (), record_warn msg e w).

(** [process.env.CONTEXT7_API_KEY] *)
Definition process_env_CONTEXT7_API_KEY : Js (option string) :=
  λ w, (Normal (process_env w), record_call ReadEnv w).

Declare Scope js_scope.
Delimit Scope js_scope with js.
Notation "x <~ m ;; k" := (bind m (λ x, k))
  (at level 100, m at next level, right associativity) : js_scope.
Notation "m ;;; k" := (bind m (λ _, k))
  (at level 100, right associativity) : js_scope.
Open Scope js_scope.

(** [a && b] and [a || b] with [a] already a boolean: [b] runs only when
    the result is still open. *)
Definition and_then (a : bool) (b : Js bool) : Js bool := if a then b else ret false.
Definition or_else (a : bool) (b : Js bool) : Js bool := if a then ret true else b.

(** ** context7/client.ts and context7/types.ts *)

Module Context7.

(** [function getApiKey(config?: Context7Config): string]

    [config?.apiKey ?? process.env.CONTEXT7_API_KEY]: the environment is
    evaluated only when the explicit key is [undefined]; [!apiKey] holds of
    [undefined] and of the empty string. *)
Definition getApiKey (config : option Context7Config) : Js string :=
  apiKey <~ match config ≫= apiKey with
            | Some k => ret (Some k)
            | None => process_env_CONTEXT7_API_KEY
            end ;;
  match apiKey with
  | None => throw Context7ApiKeyError
  | Some k => if bool_decide (k = "") then throw Context7ApiKeyError else ret k
  end.

(** [export function isContext7Available(config?: Context7Config): boolean] *)
Definition isContext7Available (config : option Context7Config) : Js bool :=
  log (CallIsContext7Available config) ;;;
  try_catch (_ <~ getApiKey config ;; ret true) (λ _, ret false).

Section WithTools.
Context {Tool : Type}.

(** The object returned by [experimental_createMCPClient]: what its
    [tools()] and [close()] promises settle with is decided by the MCP
    server process, outside this program. *)
Record MCPClient : Type := {
  client_id : nat;
  tools_settles : Completion (gmap string Tool);
  close_settles : Completion unit
}.

Record Context7ToolsOptions : Type := {
  config : option Context7Config;
  onReady : option (Js unit)
  (* onError is declared in types.ts and never read by client.ts *)
}.

Record Context7ToolsResult : Type := {
  tools : gmap string Tool;
  close : Js unit
}.

(** What spawning [npx -y @upstash/context7-mcp --api-key KEY] and the
    handshake end in, for each transport. *)
Context (mcp_server : Transport → Completion MCPClient).

Definition experimental_createMCPClient (transport : Transport) : Js MCPClient :=
  log (CallCreateMCPClient transport) ;;; settle (mcp_server transport).

Definition client_tools (client : MCPClient) : Js (gmap string Tool) :=
  log (CallClientTools (client_id client)) ;;; settle (tools_settles client).

Definition client_close (client : MCPClient) : Js unit :=
  log (CallClientClose (client_id client)) ;;; settle (close_settles client).

(** [export async function createContext7Tools(options?)] *)
Definition createContext7Tools (options : option Context7ToolsOptions)
  : Js Context7ToolsResult :=
  log (CallCreateContext7Tools (options ≫= config)) ;;;
  apiKey <~ getApiKey (options ≫= config) ;;
  let transport :=
    {| command := "npx";
       args := ["-y"; "@upstash/context7-mcp"; "--api-key"; apiKey] |} in
  client <~ experimental_createMCPClient transport ;;
  match options ≫= onReady with Some f => f | None => ret () end ;;;
  tools <~ client_tools client ;;
  ret {| tools := tools; close := client_close client |}.

End WithTools.
Arguments MCPClient : clear implicits.
Arguments Context7ToolsOptions : clear implicits.
Arguments Context7ToolsResult : clear implicits.

End Context7.

(** ** Promises *)

(** Calling an [async] function never throws at the call: the body runs up
    to its first suspension and the caller gets a promise.  The bodies retained
    by the manager have the form [await client.close()], whose only effect
    (the call of [client.close()]) happens at the call; the promise is
    represented by the completion it settles with. *)
Definition call_async {A} (fn : Js A) : Js (Completion A) :=
  λ w, let (c, w') := fn w in (Normal c, w').

(** [fns.map((fn) => fn())] *)
Fixpoint map_call {A} (fns : list (Js A)) : Js (list (Completion A)) :=
  match fns with
  | [] => ret []
  | fn :: rest =>
      p <~ call_async fn ;;
      ps <~ map_call rest ;;
      ret (p :: ps)
  end.

(** [Promise.all(promises)]: fulfilled with all the values when every promise
    is fulfilled, rejected as soon as one is rejected (the reason reported
    here is that of the first rejected promise of the array). *)
Fixpoint Promise_all {A} (promises : list (Completion A)) : Completion (list A) :=
  match promises with
  | [] => Normal []
  | Thrown e :: _ => Thrown e
  | Normal a :: rest =>
      match Promise_all rest with
      | Normal l => Normal (a :: l)
      | Thrown e => Thrown e
      end
  end.

(** [Object.assign(target, source)]: the keys of [source] win. *)
Definition Object_assign {V} (target source : gmap string V) : gmap string V :=
  source ∪ target.

(** ** mcp-tools-manager.ts *)

Module Manager.

(** [context7?: Context7Config | boolean] *)
Inductive Context7Entry : Type :=
| Flag (b : bool)
| Settings (c : Context7Config).

Record MCPToolsManagerConfig : Type := { context7 : option Context7Entry }.

(** [config?.context7 === false] and [config?.context7 === undefined] *)
Definition is_false (entry : option Context7Entry) : bool :=
  match entry with Some (Flag false) => true | _ => false end.
Definition is_undefined (entry : option Context7Entry) : bool :=
  match entry with None => true | Some _ => false end.

(** The local constant [context7Config] of [createMCPTools]:
    [config?.context7 === true ? {} : config?.context7 === false ? undefined
     : config?.context7] *)
Definition context7Config (config : option MCPToolsManagerConfig)
  : option Context7Config :=
  match config ≫= context7 with
  | Some (Flag true) => Some {| apiKey := None |}
  | Some (Flag false) => None
  | Some (Settings c) => Some c
  | None => None
  end.

Section WithTools.
Context {Tool : Type}.
Context (mcp_server : Transport → Completion (Context7.MCPClient Tool)).

Record MCPToolsResult : Type := {
  tools : gmap string Tool;
  close : Js unit;
  enabledSources : list string
}.

(** [async () => { await Promise.all(closeFunctions.map((fn) => fn())); }] *)
Definition close_all (closeFunctions : list (Js unit)) : Js unit :=
  promises <~ map_call closeFunctions ;;
  settle (Promise_all promises) ;;;
  ret ().

(** [export async function createMCPTools(config?)] *)
Definition createMCPTools (config : option MCPToolsManagerConfig) : Js MCPToolsResult :=
  let tools : gmap string Tool := ∅ in
  let closeFunctions : list (Js unit) := [] in
  let enabledSources : list string := [] in
  let entry := config ≫= context7 in
  let context7Config := context7Config config in
  shouldEnableContext7 <~
    and_then (negb (is_false entry))
      (or_else (negb (is_undefined entry))
         (Context7.isContext7Available context7Config)) ;;
  proceed <~
    and_then shouldEnableContext7 (Context7.isContext7Available context7Config) ;;
  locals <~
    (if proceed then
       try_catch
         (context7 <~ Context7.createContext7Tools mcp_server
                        (Some {| Context7.config := context7Config;
                                 Context7.onReady := None |}) ;;
          ret (Object_assign tools (Context7.tools context7),
               closeFunctions ++ [Context7.close context7],
               enabledSources ++ ["context7"]))
         (λ error,
            console_warn "Failed to connect to Context7 MCP server:" error ;;;
            ret (tools, closeFunctions, enabledSources))
     else ret (tools, closeFunctions, enabledSources)) ;;
  let '(tools, closeFunctions, enabledSources) := locals in
  ret {| tools := tools;
         enabledSources := enabledSources;
         close := close_all closeFunctions |}.

End WithTools.
Arguments MCPToolsResult : clear implicits.

(** [export function getAvailableMCPTools(): string[]] *)
Definition getAvailableMCPTools : Js (list string) :=
  let available : list string := [] in
  found <~ Context7.isContext7Available None ;;
  let available := if found then available ++ ["context7"] else available in
  ret available.

End Manager.

(** ** Concrete runs *)

Module Runs.
Import Manager.

Definition world (env : option string) : World :=
  {| process_env := env; console := []; calls := [] |}.

Definition docs : gmap string string :=
  {[ "resolve-library-id" := "resolve"; "get-library-docs" := "docs" ]}.

Definition good_client : Context7.MCPClient string :=
  {| Context7.client_id := 7;
     Context7.tools_settles := Normal docs;
     Context7.close_settles := Normal () |}.

Definition server_up (t : Transport) : Completion (Context7.MCPClient string) :=
  Normal good_client.

Definition server_down (t : Transport) : Completion (Context7.MCPClient string) :=
  Thrown (ExternalError "spawn npx ENOENT").

(** A client whose listing of tools is rejected, and its server. *)
Definition mute_client : Context7.MCPClient string :=
  {| Context7.client_id := 9;
     Context7.tools_settles := Thrown (ExternalError "tools/list timed out");
     Context7.close_settles := Normal () |}.

Definition server_mute (t : Transport) : Completion (Context7.MCPClient string) :=
  Normal mute_client.

(** An [onReady] callback that throws. *)
Definition ready_throws : Js unit := throw (ExternalError "onReady failed").

Definition with_key (k : string) : option MCPToolsManagerConfig :=
  Some {| context7 := Some (Settings {| apiKey := Some k |}) |}.
Definition with_flag (b : bool) : option MCPToolsManagerConfig :=
  Some {| context7 := Some (Flag b) |}.

(** Summary of a run of [createMCPTools]: completion, enabled sources,
    tool names, console and call log. *)
Definition observe (r : Completion (MCPToolsResult string) * World) :=
  (match fst r with
   | Normal res => Some (enabledSources res, map_to_list (tools res))
   | Thrown _ => None
   end, console (snd r), calls (snd r)).
End Runs.
Import Runs.

(** * Vocabulary of the statements *)

Section Context7Vocabulary.
Import Context7.
Context {Tool : Type}.
Context (mcp_server : Transport → Completion (MCPClient Tool)).

(** The value [getApiKey] tests: the explicit key when it is defined, the
    environment value otherwise. *)
Definition candidate (config : option Context7Config) (env : option string)
  : option string :=
  match config ≫= apiKey with Some k => Some k | None => env end.

(** What [getApiKey] makes of the selected value: [!apiKey] rejects
    [undefined] and the empty string. *)
Definition usable (c : option string) : Completion string :=
  match c with
  | Some k => if bool_decide (k = "") then Thrown Context7ApiKeyError else Normal k
  | None => Thrown Context7ApiKeyError
  end.

(** The world after the key was looked up. *)
Definition looked_up (config : option Context7Config) (w : World) : World :=
  match config ≫= apiKey with Some _ => w | None => record_call ReadEnv w end.

(** The calls made between two worlds of one run. *)
Definition since (w w' : World) : list Call := drop (length (calls w)) (calls w').

(** The same world with another value of [CONTEXT7_API_KEY]. *)
Definition with_env (env : option string) (w : World) : World :=
  {| process_env := env; console := console w; calls := calls w |}.

(** The transport built by [createContext7Tools] for a key. *)
Definition npx_context7 (key : string) : Transport :=
  {| command := "npx"; args := ["-y"; "@upstash/context7-mcp"; "--api-key"; key] |}.

(** The calls of the key lookup: the environment is read when the explicit
    key is undefined. *)
Definition key_calls (c : option Context7Config) : list Call :=
  match c ≫= apiKey with Some _ => [] | None => [ReadEnv] end.

(** How the connection and the listing of tools end for a key. *)
Definition connect (key : string) : Completion (Context7ToolsResult Tool) :=
  match mcp_server (npx_context7 key) with
  | Thrown e => Thrown e
  | Normal client =>
      match tools_settles client with
      | Thrown e => Thrown e
      | Normal t => Normal {| tools := t; close := client_close client |}
      end
  end.

(** The calls of the connection and of the listing of tools. *)
Definition connect_calls (key : string) : list Call :=
  CallCreateMCPClient (npx_context7 key) ::
  match mcp_server (npx_context7 key) with
  | Thrown _ => []
  | Normal client => [CallClientTools (client_id client)]
  end.



(** The world in which [createContext7Tools] holds its client: the call, the
    key lookup and the creation of the client are logged. *)
Definition connected (c : option Context7Config) (key : string) (w : World) : World :=
  record_call (CallCreateMCPClient (npx_context7 key))
    (looked_up c (record_call (CallCreateContext7Tools c) w)).

End Context7Vocabulary.

Section ManagerVocabulary.
Import Manager.
Context {Tool : Type}.
Context (mcp_server : Transport → Completion (Context7.MCPClient Tool)).

(** The options [createMCPTools] passes to [createContext7Tools]. *)
Definition options_of (config : option MCPToolsManagerConfig)
  : option Context7.Context7ToolsOptions :=
  Some {| Context7.config := context7Config config; Context7.onReady := None |}.

(** The result when nothing was activated. *)
Definition nothing_enabled : MCPToolsResult Tool :=
  {| tools := ∅; close := close_all []; enabledSources := [] |}.

(** The world after one availability probe. *)
Definition probe (c : option Context7Config) (w : World) : World :=
  looked_up c (record_call (CallIsContext7Available c) w).

(** The world after the probes of the decision: an absent entry is probed
    for [shouldEnableContext7] and, when that is true, again by the [if]. *)
Definition decided (config : option MCPToolsManagerConfig) (available : bool)
    (w : World) : World :=
  let c := context7Config config in
  if is_undefined (config ≫= context7) && available
  then probe c (probe c w) else probe c w.

(** The calls of one availability probe. *)
Definition probe_calls (c : option Context7Config) : list Call :=
  CallIsContext7Available c :: key_calls c.

(** The calls of the activation attempt, in an environment. *)
Definition attempt_calls (c : option Context7Config) (env : option string)
  : list Call :=
  CallCreateContext7Tools c :: key_calls c ++
    match usable (candidate c env) with
    | Thrown _ => []
    | Normal key => connect_calls mcp_server key
    end.

(** All the calls of [createMCPTools], in an environment. *)
Definition manager_calls (config : option MCPToolsManagerConfig)
    (env : option string) : list Call :=
  if is_false (config ≫= context7) then []
  else
    let c := context7Config config in
    let available := is_normal (usable (candidate c env)) in
    probe_calls c ++
    (if is_undefined (config ≫= context7) && available then probe_calls c else []) ++
    (if available then attempt_calls c env else []).

End ManagerVocabulary.

(** * Properties *)

(** ** What the operations of client.ts compute *)

Section Resolution.
Import Context7.

Lemma looked_up_env config w : process_env (looked_up config w) = process_env w.
Proof. unfold looked_up. by destruct (config ≫= apiKey). Qed.

Lemma looked_up_console config w : console (looked_up config w) = console w.
Proof. unfold looked_up. by destruct (config ≫= apiKey). Qed.

Lemma getApiKey_run config w :
  getApiKey config w = (usable (candidate config (process_env w)), looked_up config w).
Proof.
  unfold getApiKey, candidate, looked_up, usable, bind.
  destruct (config ≫= apiKey) as [k|]; cbn.
  - by case_bool_decide.
  - destruct (process_env w) as [k|]; [by case_bool_decide | done].
Qed.

Lemma isContext7Available_run config w :
  isContext7Available config w =
    (Normal (is_normal (usable (candidate config (process_env w)))),
     looked_up config (record_call (CallIsContext7Available config) w)).
Proof.
  unfold isContext7Available, bind, try_catch, log.
  rewrite getApiKey_run. cbn.
  by destruct (usable _).
Qed.

Lemma usable_normal c k : usable c = Normal k ↔ c = Some k ∧ k ≠ "".
Proof.
  unfold usable. destruct c as [k'|]; [case_bool_decide|];
    split; try intros [? ?]; intros; simplify_eq; done.
Qed.

Lemma usable_thrown c e :
  usable c = Thrown e ↔ e = Context7ApiKeyError ∧ (c = None ∨ c = Some "").
Proof.
  unfold usable. destruct c as [k'|]; [case_bool_decide|];
    split; try intros [? [?|?]]; intros; simplify_eq; auto.
Qed.
End Resolution.

(** ** What [createMCPTools] computes *)

Section ManagerRuns.
Import Manager.
Context {Tool : Type}.
Context (mcp_server : Transport → Completion (Context7.MCPClient Tool)).

Lemma probe_env c w : process_env (probe c w) = process_env w.
Proof. unfold probe. by rewrite looked_up_env. Qed.

Lemma decided_env config b w : process_env (decided config b w) = process_env w.
Proof. unfold decided. case_match; by rewrite !probe_env. Qed.

Lemma createMCPTools_run config w :
  createMCPTools mcp_server config w =
    if is_false (config ≫= context7) then (Normal nothing_enabled, w)
    else
      let available :=
        is_normal (usable (candidate (context7Config config) (process_env w))) in
      let w1 := decided config available w in
      if available then
        match Context7.createContext7Tools mcp_server (options_of config) w1 with
        | (Normal context7, w2) =>
            (Normal {| tools := Object_assign ∅ (Context7.tools context7);
                       close := close_all [Context7.close context7];
                       enabledSources := ["context7"] |}, w2)
        | (Thrown e, w2) =>
            (Normal nothing_enabled,
             record_warn "Failed to connect to Context7 MCP server:" e w2)
        end
      else (Normal nothing_enabled, w1).
Proof.
  unfold createMCPTools, decided, options_of, nothing_enabled.
  destruct (is_false (config ≫= context7)) eqn:Hf; cbn [negb and_then].
  { by cbn. }
  destruct (is_undefined (config ≫= context7)) eqn:Hu; cbn [negb or_else andb].
  - unfold bind at 1. rewrite isContext7Available_run. fold (probe (context7Config config) w).
    destruct (is_normal _) eqn:Ha; cbn [and_then].
    + unfold bind at 1. rewrite isContext7Available_run, probe_env, Ha.
      fold (probe (context7Config config) (probe (context7Config config) w)).
      unfold bind at 1, try_catch, bind at 1.
      destruct (Context7.createContext7Tools _ _ _) as [[context7|e] w2]; done.
    + done.
  - unfold bind at 1, ret at 1. unfold and_then at 1.
    unfold bind at 1. rewrite isContext7Available_run. fold (probe (context7Config config) w).
    destruct (is_normal _) eqn:Ha.
    + unfold bind at 1, try_catch, bind at 1.
      destruct (Context7.createContext7Tools _ _ _) as [[context7|e] w2]; done.
    + done.
Qed.
End ManagerRuns.

(** ** What [createContext7Tools] computes *)

Lemma since_app w w' l : calls w' = calls w ++ l → since w w' = l.
Proof. unfold since. intros ->. by rewrite drop_app_length. Qed.

Section Activation.
Import Context7.
Context {Tool : Type}.
Context (mcp_server : Transport → Completion (MCPClient Tool)).

Lemma looked_up_calls c w : calls (looked_up c w) = calls w ++ key_calls c.
Proof.
  unfold looked_up, key_calls. destruct (c ≫= apiKey); [|done].
  by rewrite app_nil_r.
Qed.

Lemma createContext7Tools_fst c w :
  fst (createContext7Tools mcp_server (Some {| config := c; onReady := None |}) w) =
    match usable (candidate c (process_env w)) with
    | Thrown e => Thrown e
    | Normal key => connect mcp_server key
    end.
Proof.
  unfold createContext7Tools, connect, experimental_createMCPClient, client_tools.
  unfold bind, log, settle, ret. cbn [mbind option_bind config onReady].
  rewrite getApiKey_run. cbn [process_env record_call].
  destruct (usable _) as [key|e]; [|done].
  fold (npx_context7 key).
  destruct (mcp_server _) as [client|e]; [|done].
  by destruct (tools_settles client).
Qed.

Lemma createContext7Tools_console c w :
  console (snd (createContext7Tools mcp_server
                  (Some {| config := c; onReady := None |}) w)) = console w.
Proof.
  unfold createContext7Tools, connect, experimental_createMCPClient, client_tools.
  unfold bind, log, settle, ret. cbn [mbind option_bind config onReady].
  rewrite getApiKey_run.
  destruct (usable _) as [key|e]; cbn; [|by rewrite looked_up_console].
  destruct (mcp_server _) as [client|e]; cbn; [|by rewrite looked_up_console].
  destruct (tools_settles client); cbn; by rewrite looked_up_console.
Qed.

Lemma createContext7Tools_env c w :
  process_env (snd (createContext7Tools mcp_server
                      (Some {| config := c; onReady := None |}) w)) = process_env w.
Proof.
  unfold createContext7Tools, connect, experimental_createMCPClient, client_tools.
  unfold bind, log, settle, ret. cbn [mbind option_bind config onReady].
  rewrite getApiKey_run.
  destruct (usable _) as [key|e]; cbn; [|by rewrite looked_up_env].
  destruct (mcp_server _) as [client|e]; cbn; [|by rewrite looked_up_env].
  destruct (tools_settles client); cbn; by rewrite looked_up_env.
Qed.

Lemma createContext7Tools_calls c w :
  calls (snd (createContext7Tools mcp_server
                (Some {| config := c; onReady := None |}) w)) =
    calls w ++ CallCreateContext7Tools c :: key_calls c ++
      match usable (candidate c (process_env w)) with
      | Thrown _ => []
      | Normal key => connect_calls mcp_server key
      end.
Proof.
  unfold createContext7Tools, connect_calls, experimental_createMCPClient, client_tools.
  unfold bind, log, settle, ret. cbn [mbind option_bind config onReady].
  rewrite getApiKey_run. cbn [process_env record_call].
  destruct (usable _) as [key|e]; cbn [snd].
  - fold (npx_context7 key).
    destruct (mcp_server _) as [client|e]; cbn [snd calls record_call].
    + destruct (tools_settles client); cbn [snd calls record_call];
        rewrite looked_up_calls; cbn [calls record_call];
        by rewrite <- !app_assoc.
    + rewrite looked_up_calls. cbn [calls record_call]. by rewrite <- !app_assoc.
  - rewrite looked_up_calls. cbn [calls record_call].
    by rewrite app_nil_r, <- !app_assoc.
Qed.
End Activation.

(** ** The calls of a run of [createMCPTools] *)

Section ManagerCalls.
Import Manager.
Context {Tool : Type}.
Context (mcp_server : Transport → Completion (Context7.MCPClient Tool)).

Lemma probe_calls_eq c w : calls (probe c w) = calls w ++ probe_calls c.
Proof.
  unfold probe. rewrite looked_up_calls. cbn [calls record_call].
  by rewrite <- app_assoc.
Qed.

Lemma probe_console c w : console (probe c w) = console w.
Proof. unfold probe. by rewrite looked_up_console. Qed.

Lemma decided_calls config b w :
  calls (decided config b w) =
    calls w ++ probe_calls (context7Config config) ++
    (if is_undefined (config ≫= context7) && b
     then probe_calls (context7Config config) else []).
Proof.
  unfold decided. destruct (_ && _).
  - by rewrite !probe_calls_eq, <- app_assoc.
  - by rewrite probe_calls_eq, app_nil_r.
Qed.

Lemma decided_console config b w : console (decided config b w) = console w.
Proof. unfold decided. destruct (_ && _); by rewrite !probe_console. Qed.

Lemma createMCPTools_calls config w :
  since w (snd (createMCPTools mcp_server config w)) =
    manager_calls mcp_server config (process_env w).
Proof.
  apply since_app. rewrite createMCPTools_run. unfold manager_calls.
  destruct (is_false _); [by rewrite app_nil_r|]. cbv zeta.
  destruct (is_normal _) eqn:Ha.
  - pose proof (createContext7Tools_calls mcp_server (context7Config config)
                  (decided config true w)) as Hc.
    fold (options_of config) in Hc. rewrite decided_env in Hc.
    fold (attempt_calls mcp_server (context7Config config) (process_env w)) in Hc.
    rewrite decided_calls in Hc.
    destruct (Context7.createContext7Tools _ _ _) as [[c7|e] w2];
      cbn [snd calls record_warn] in *; rewrite Hc.
    all: by rewrite <- !app_assoc.
  - cbn [snd]. rewrite decided_calls, andb_false_r. by rewrite !app_nil_r.
Qed.
End ManagerCalls.

(** ** Configuration resolution and the availability probe *)

(** C7, as amended.  [getApiKey] throws [Context7ApiKeyError] exactly when
  the value it selects is missing or empty: the explicit key is the empty
  string, or the explicit key is undefined and the environment value is
  undefined or the empty string.  It returns a key [k] exactly when [k] is
  non-empty and is the explicit key, or the explicit key is undefined and
  [k] is the environment value.  No other error is thrown. *)
Theorem getApiKey_throws_iff_selected_key_missing_or_empty
  (config : option Context7Config) (w : World) :
(fst (Context7.getApiKey config w) = Thrown Context7ApiKeyError ↔
   config ≫= apiKey = Some "" ∨
   (config ≫= apiKey = None ∧ (process_env w = None ∨ process_env w = Some ""))) ∧
(∀ k, fst (Context7.getApiKey config w) = Normal k ↔
   k ≠ "" ∧
   (config ≫= apiKey = Some k ∨ (config ≫= apiKey = None ∧ process_env w = Some k))) ∧
(∀ e, fst (Context7.getApiKey config w) = Thrown e → e = Context7ApiKeyError).
Proof.
rewrite getApiKey_run. cbn [fst]. unfold candidate.
split; [|split].
- rewrite usable_thrown.
  destruct (config ≫= apiKey) as [k|]; split.
  + intros [_ [?|?]]; simplify_eq. by left.
  + intros [?|[? _]]; simplify_eq. split; [done|by right].
  + intros [_ H]. right. split; [done|]. exact H.
  + intros [?|[_ H]]; [done|]. split; [done|]. exact H.
- intros k. rewrite usable_normal.
  destruct (config ≫= apiKey) as [k'|]; split.
  + intros [? ?]; simplify_eq. split; [done|by left].
  + intros [? [?|[? _]]]; simplify_eq. done.
  + intros [? ?]. split; [done|]. right. done.
  + intros [? [?|[_ ?]]]; [done|]. done.
- intros e. rewrite usable_thrown. by intros [-> _].
Qed.

(** The claim C7 as it is written fails: with the explicit key present but
  empty and the environment variable set, both values are present and
  [getApiKey] still throws [Context7ApiKeyError]. *)
Lemma getApiKey_throws_with_both_present :
¬ (fst (Context7.getApiKey (Some {| apiKey := Some "" |}) (world (Some "ctx7-key")))
     = Thrown Context7ApiKeyError ↔
   (Some {| apiKey := Some "" |} ≫= apiKey = None ∧
    process_env (world (Some "ctx7-key")) = None)).
Proof.
cbn. intros [H _]. by destruct H.
Qed.

(** C5.  [isContext7Available] always returns a boolean (it never throws),
  and the boolean is [true] exactly when [getApiKey] succeeds on the same
  argument in the same world. *)
Theorem isContext7Available_iff_getApiKey_succeeds
  (config : option Context7Config) (w : World) :
∃ (b : bool) (w' : World),
  Context7.isContext7Available config w = (Normal b, w') ∧
  (b = true ↔ ∃ k w'', Context7.getApiKey config w = (Normal k, w'')) ∧
  (b = false ↔ ∃ e w'', Context7.getApiKey config w = (Thrown e, w'')).
Proof.
rewrite isContext7Available_run, getApiKey_run.
eexists _, _. split; [done|].
destruct (usable _) as [k|e]; cbn [is_normal]; split; split;
  try done; try (intros (? & ? & ?); done); intros _; by eexists _, _.
Qed.

(** ** The manager *)

(** C8.  [getAvailableMCPTools] returns normally; ["context7"] is in the
  returned list exactly when [isContext7Available()] (no argument) returns
  [true] in that world, the list holds nothing else, and neither the
  environment nor the console is changed. *)
Theorem getAvailableMCPTools_reports_available (w : World) :
∃ (available : list string) (w' : World),
  Manager.getAvailableMCPTools w = (Normal available, w') ∧
  ("context7" ∈ available ↔
     fst (Context7.isContext7Available None w) = Normal true) ∧
  (∀ name, name ∈ available → name = "context7") ∧
  process_env w' = process_env w ∧
  console w' = console w.
Proof.
unfold Manager.getAvailableMCPTools, bind, ret.
rewrite isContext7Available_run. cbn [fst].
eexists _, _. split; [done|].
rewrite looked_up_env, looked_up_console. cbn [process_env console record_call].
destruct (is_normal _); cbn [app].
- split; [|split; [|done]].
  + split; [done|]. intros _. apply list_elem_of_singleton. done.
  + intros name ?%list_elem_of_singleton. done.
- split; [|split; [|done]].
  + split; [by intros ?%elem_of_nil | done].
  + by intros name ?%elem_of_nil.
Qed.

Section ManagerClaims.
Import Manager.
Context {Tool : Type}.
Context (mcp_server : Transport → Completion (Context7.MCPClient Tool)).

(** C1.  [createMCPTools] returns normally for every configuration, every
    world and every behaviour of the MCP server; and when the activation
    of Context7 ([createContext7Tools] on the options the manager passes)
    throws, the result has no enabled source and no tool. *)
Theorem createMCPTools_never_throws
    (config : option MCPToolsManagerConfig) (w : World) :
  ∃ (r : MCPToolsResult Tool) (w' : World),
    createMCPTools mcp_server config w = (Normal r, w') ∧
    ((∃ e, fst (Context7.createContext7Tools mcp_server (options_of config) w)
             = Thrown e) →
     enabledSources r = [] ∧ tools r = ∅).
Proof.
  rewrite createMCPTools_run.
  destruct (is_false _); [by eexists _, _|].
  cbv zeta.
  destruct (is_normal _) eqn:Ha; [|by eexists _, _].
  destruct (Context7.createContext7Tools _ _ (decided _ _ _)) as [[c7|e] w2] eqn:Hrun;
    [|by eexists _, _].
  eexists _, _. split; [done|].
  intros [e He]. exfalso.
  apply (f_equal fst) in Hrun. cbn [fst] in Hrun.
  unfold options_of in *.
  rewrite createContext7Tools_fst in He, Hrun.
  rewrite decided_env in Hrun. congruence.
Qed.

(** C2.  When the entry is the literal [false], [createMCPTools] returns
    the empty result in the very world it started in: no operation at all
    was called (so neither [isContext7Available] nor
    [createContext7Tools]), and ["context7"] is not an enabled source. *)
Theorem createMCPTools_disabled_makes_no_call
    (config : option MCPToolsManagerConfig) (w : World) :
  config ≫= context7 = Some (Flag false) →
  ∃ r : MCPToolsResult Tool,
    createMCPTools mcp_server config w = (Normal r, w) ∧
    ("context7" ∉ enabledSources r) ∧
    since w (snd (createMCPTools mcp_server config w)) = [].
Proof.
  intros Hentry. rewrite createMCPTools_run, Hentry. cbn [is_false snd].
  eexists. split; [done|]. split.
  - cbn. apply not_elem_of_nil.
  - apply since_app. by rewrite app_nil_r.
Qed.

(** C3, as amended.  When Context7 is explicitly requested (the entry is
    [true] or a settings record) and no key can be resolved for it,
    [createMCPTools] returns normally with Context7 excluded (no enabled
    source, no tool); the availability guard of the [if] stops it before
    the activation: the only calls are one availability probe and its key
    lookup, [createContext7Tools] is not called, and nothing is written to
    the console. *)
Theorem createMCPTools_unresolvable_request_is_skipped
    (config : option MCPToolsManagerConfig) (w : World) :
  (config ≫= context7 = Some (Flag true) ∨
   ∃ c, config ≫= context7 = Some (Settings c)) →
  (∃ e w1, Context7.getApiKey (context7Config config) w = (Thrown e, w1)) →
  ∃ (r : MCPToolsResult Tool) (w' : World),
    createMCPTools mcp_server config w = (Normal r, w') ∧
    enabledSources r = [] ∧ tools r = ∅ ∧
    console w' = console w ∧
    since w w' = CallIsContext7Available (context7Config config)
                   :: key_calls (context7Config config) ∧
    (∀ c, CallCreateContext7Tools c ∉ since w w').
Proof.
  intros Hentry (e & w1 & Hkey).
  rewrite getApiKey_run in Hkey. injection Hkey as Hkey _.
  rewrite createMCPTools_run.
  assert (is_false (config ≫= context7) = false) as ->
    by (destruct Hentry as [->|[c ->]]; done).
  cbv zeta. rewrite Hkey. cbn [is_normal].
  assert (since w (decided config false w) =
          CallIsContext7Available (context7Config config)
            :: key_calls (context7Config config)) as Hcalls.
  { apply since_app. by rewrite decided_calls, andb_false_r, app_nil_r. }
  eexists _, _. split; [done|]. split; [done|]. split; [done|].
  split; [by rewrite decided_console|].
  rewrite Hcalls. split; [done|].
  intros c Hin. unfold key_calls in Hin.
  destruct (context7Config config ≫= apiKey);
    repeat (apply elem_of_cons in Hin as [Hin|Hin]; [done|]);
    by apply elem_of_nil in Hin.
Qed.

(** C4.  When the configuration has no entry for Context7 (no
    configuration at all, or [context7] undefined), [createMCPTools] calls
    [createContext7Tools] if and only if [isContext7Available()] returns
    [true] in the world of the call. *)
Theorem createMCPTools_autodetects_absent_entry
    (config : option MCPToolsManagerConfig) (w : World) :
  config ≫= context7 = None →
  ((∃ c, CallCreateContext7Tools c ∈ since w (snd (createMCPTools mcp_server config w)))
   ↔ fst (Context7.isContext7Available None w) = Normal true).
Proof.
  intros Hentry.
  rewrite createMCPTools_calls, isContext7Available_run. cbn [fst].
  unfold manager_calls, context7Config. rewrite Hentry. cbn [is_false is_undefined].
  cbv zeta. destruct (is_normal _); cbn [andb].
  - split; [done|]. intros _. exists None.
    unfold attempt_calls. rewrite !elem_of_app. right. right.
    apply elem_of_cons. by left.
  - split; [|done]. intros [c Hin]. exfalso.
    rewrite !app_nil_r in Hin. unfold probe_calls, key_calls in Hin. cbn in Hin.
    repeat (apply elem_of_cons in Hin as [Hin|Hin]; [done|]).
    by apply elem_of_nil in Hin.
Qed.

(** C9.  The literal [true] and the empty settings record [{}] are the
    same request: on every world and for every behaviour of the MCP server
    the two runs of [createMCPTools] are equal (completion, result and final
    world, which holds the console and every call made). *)
Theorem createMCPTools_true_is_empty_settings (w : World) :
  context7Config (Some {| context7 := Some (Flag true) |}) =
    context7Config (Some {| context7 := Some (Settings {| apiKey := None |}) |}) ∧
  createMCPTools mcp_server (Some {| context7 := Some (Flag true) |}) w =
    createMCPTools mcp_server
      (Some {| context7 := Some (Settings {| apiKey := None |}) |}) w.
Proof.
  split; [reflexivity|].
  by rewrite !createMCPTools_run.
Qed.
End ManagerClaims.

(** ** The combined close *)

Section Closing.
Import Manager.
Context {Tool : Type}.
Context (mcp_server : Transport → Completion (Context7.MCPClient Tool)).

(** Every function of the array is called once, in order, whatever the
    earlier ones settle with. *)
Lemma map_call_run {A} (fns : list (Js A)) (w : World) :
  ∃ promises,
    map_call fns w = (Normal promises, foldl (λ w0 fn, snd (fn w0)) w fns) ∧
    length promises = length fns.
Proof.
  revert w. induction fns as [|fn rest IH]; intros w.
  - by exists [].
  - cbn [map_call foldl]. unfold bind at 1, call_async.
    destruct (fn w) as [p w1]. cbn [snd].
    unfold bind at 1. destruct (IH w1) as (ps & -> & Hlen).
    exists (p :: ps). split; [done|]. cbn. by rewrite Hlen.
Qed.

Lemma close_all_world (fns : list (Js unit)) (w : World) :
  snd (close_all fns w) = foldl (λ w0 fn, snd (fn w0)) w fns.
Proof.
  unfold close_all, bind, settle, ret.
  destruct (map_call_run fns w) as (ps & -> & _).
  by destruct (Promise_all ps).
Qed.

Lemma client_close_calls (clients : list (Context7.MCPClient Tool)) (w : World) :
  calls (foldl (λ w0 fn, snd (fn w0)) w (Context7.client_close <$> clients)) =
    calls w ++ ((λ client, CallClientClose (Context7.client_id client)) <$> clients).
Proof.
  revert w. induction clients as [|client rest IH]; intros w; cbn [fmap list_fmap foldl].
  - by rewrite app_nil_r.
  - rewrite IH. unfold Context7.client_close, bind, log, settle.
    cbn [snd calls record_call]. by rewrite <- app_assoc.
Qed.

Lemma createContext7Tools_close c w context7 :
  fst (Context7.createContext7Tools mcp_server
         (Some {| Context7.config := c; Context7.onReady := None |}) w)
    = Normal context7 →
  ∃ client : Context7.MCPClient Tool,
    Context7.close context7 = Context7.client_close client.
Proof.
  rewrite createContext7Tools_fst. unfold connect.
  destruct (usable _) as [key|]; [|done].
  destruct (mcp_server _) as [client|]; [|done].
  destruct (Context7.tools_settles client); [|done].
  intros [= <-]. by exists client.
Qed.

(** C6.  The [close] of a result of [createMCPTools] is the combined close
    of the retained client closes, one per enabled source.  The combined
    close of any list of client closes calls [client.close()] of every
    client exactly once, in order, whatever each call settles with (the log
    of calls grows by exactly one [CallClientClose] per retained client);
    and on the empty list it completes normally and leaves the world as it
    was. *)
Theorem close_calls_every_retained_close_once :
  (∀ (config : option MCPToolsManagerConfig) (w : World),
     ∃ (r : MCPToolsResult Tool) (w' : World)
       (retained : list (Context7.MCPClient Tool)),
       createMCPTools mcp_server config w = (Normal r, w') ∧
       close r = close_all (Context7.client_close <$> retained) ∧
       length retained = length (enabledSources r)) ∧
  (∀ (retained : list (Context7.MCPClient Tool)) (w : World),
     since w (snd (close_all (Context7.client_close <$> retained) w)) =
       (λ client, CallClientClose (Context7.client_id client)) <$> retained) ∧
  (∀ w : World, close_all [] w = (Normal (), w)).
Proof.
  split; [|split].
  - intros config w. rewrite createMCPTools_run.
    destruct (is_false _); [by exists nothing_enabled, w, []|]. cbv zeta.
    destruct (is_normal _); [|by eexists nothing_enabled, _, []].
    destruct (Context7.createContext7Tools _ _ _) as [[context7|e] w2] eqn:Hrun;
      [|by eexists nothing_enabled, _, []].
    apply (f_equal fst) in Hrun. cbn [fst] in Hrun.
    apply createContext7Tools_close in Hrun as [client Hclose].
    eexists _, _, [client]. split; [done|]. cbn. by rewrite Hclose.
  - intros retained w. apply since_app.
    by rewrite close_all_world, client_close_calls.
  - done.
Qed.
End Closing.

(** A rejected close in the middle: the three clients are all closed once,
  and the combined close reports the rejection. *)
Example close_all_with_a_failing_close :
let client (n : nat) (c : Completion unit) : Context7.MCPClient string :=
  {| Context7.client_id := n; Context7.tools_settles := Normal ∅;
     Context7.close_settles := c |} in
let fns := Context7.client_close <$>
  [client 1 (Normal ()); client 2 (Thrown (ExternalError "EPIPE")); client 3 (Normal ())] in
Manager.close_all fns (world None) =
  (Thrown (ExternalError "EPIPE"),
   {| process_env := None; console := [];
      calls := [CallClientClose 1; CallClientClose 2; CallClientClose 3] |}).
Proof. reflexivity. Qed.

(** ** The explicit key and the environment *)

Section ExplicitKey.
Context {Tool : Type}.
Context (mcp_server : Transport → Completion (Context7.MCPClient Tool)).

(** C10.  With a non-empty explicit key [k], two runs that differ only in
    the value of [CONTEXT7_API_KEY] agree: [getApiKey] returns [k] and
    makes no call, [isContext7Available] returns [true], and
    [createContext7Tools] (called without [onReady], as the manager does)
    ends the same way with the same calls, connecting with the transport
    built from [k]; the environment is not read in any of them.  And
    whenever [getApiKey] reads the environment, the explicit key is absent
    or empty. *)
Theorem explicit_key_is_independent_of_environment :
  (∀ (k : string) (w : World) (env1 env2 : option string),
     k ≠ "" →
     let c := Some {| apiKey := Some k |} in
     let options := Some {| Context7.config := c; Context7.onReady := None |} in
     let w1 := with_env env1 w in
     let w2 := with_env env2 w in
     (Context7.getApiKey c w1 = (Normal k, w1) ∧
      Context7.getApiKey c w2 = (Normal k, w2)) ∧
     (fst (Context7.isContext7Available c w1) = Normal true ∧
      fst (Context7.isContext7Available c w2) = Normal true ∧
      since w1 (snd (Context7.isContext7Available c w1)) = [CallIsContext7Available c] ∧
      since w2 (snd (Context7.isContext7Available c w2)) = [CallIsContext7Available c]) ∧
     (fst (Context7.createContext7Tools mcp_server options w1) =
        fst (Context7.createContext7Tools mcp_server options w2) ∧
      since w1 (snd (Context7.createContext7Tools mcp_server options w1)) =
        CallCreateContext7Tools c :: connect_calls mcp_server k ∧
      since w2 (snd (Context7.createContext7Tools mcp_server options w2)) =
        CallCreateContext7Tools c :: connect_calls mcp_server k ∧
      console (snd (Context7.createContext7Tools mcp_server options w1)) =
        console (snd (Context7.createContext7Tools mcp_server options w2)))) ∧
  (∀ (config : option Context7Config) (w : World),
     ReadEnv ∈ since w (snd (Context7.getApiKey config w)) →
     config ≫= apiKey = None ∨ config ≫= apiKey = Some "").
Proof.
  split.
  - intros k w env1 env2 Hk c options w1 w2.
    assert (∀ env, usable (candidate c env) = Normal k) as Hus.
    { intros env. apply usable_normal. done. }
    split; [|split].
    + rewrite !getApiKey_run, !Hus. done.
    + rewrite !isContext7Available_run, !Hus. cbn [fst snd is_normal].
      repeat split; apply since_app; done.
    + subst options. rewrite !createContext7Tools_fst, !Hus.
      rewrite !createContext7Tools_console.
      repeat split; apply since_app;
        by rewrite createContext7Tools_calls, Hus.
  - intros config w Hin. left.
    rewrite getApiKey_run in Hin. cbn [snd] in Hin.
    rewrite (since_app _ _ (key_calls config)) in Hin by apply looked_up_calls.
    unfold key_calls in Hin. destruct (config ≫= apiKey); [|done].
    by apply elem_of_nil in Hin.
Qed.
End ExplicitKey.

(** ** The theorems at concrete inputs *)

(** The claim C3 as it is written fails: with [{context7: true}] and no key
  in the environment, no key can be resolved, and still
  [createContext7Tools] is never called and no warning is written. *)
Lemma createMCPTools_requested_without_key_warns_nothing :
(∃ w1, Context7.getApiKey (Manager.context7Config (with_flag true)) (world None)
         = (Thrown Context7ApiKeyError, w1)) ∧
¬ (∃ msg e,
     (msg, e) ∈ console (snd (Manager.createMCPTools server_up (with_flag true)
                                (world None)))) ∧
¬ (∃ c,
     CallCreateContext7Tools c ∈
       calls (snd (Manager.createMCPTools server_up (with_flag true) (world None)))).
Proof.
split; [by eexists|]. split.
- intros (msg & e & Hin). cbn in Hin. by apply elem_of_nil in Hin.
- intros (c & Hin). cbn in Hin.
  repeat (apply elem_of_cons in Hin as [Hin|Hin]; [done|]).
  by apply elem_of_nil in Hin.
Qed.

Lemma createMCPTools_never_throws_witness :
∃ (r : Manager.MCPToolsResult string) (w' : World),
  Manager.createMCPTools server_down (with_key "x") (world None) = (Normal r, w') ∧
  Manager.enabledSources r = [] ∧ Manager.tools r = ∅.
Proof.
destruct (createMCPTools_never_throws server_down (with_key "x") (world None))
  as (r & w' & Hrun & Hempty).
exists r, w'. split; [exact Hrun|].
apply Hempty. eexists. reflexivity.
Defined.

Lemma createMCPTools_disabled_makes_no_call_witness :
∃ r : Manager.MCPToolsResult string,
  Manager.createMCPTools server_up (with_flag false) (world (Some "ctx7-key"))
    = (Normal r, world (Some "ctx7-key")) ∧
  ("context7" ∉ Manager.enabledSources r) ∧
  since (world (Some "ctx7-key"))
    (snd (Manager.createMCPTools server_up (with_flag false) (world (Some "ctx7-key"))))
    = [].
Proof.
apply (createMCPTools_disabled_makes_no_call server_up (with_flag false)
         (world (Some "ctx7-key"))).
reflexivity.
Defined.

Lemma createMCPTools_unresolvable_request_is_skipped_witness :
∃ (r : Manager.MCPToolsResult string) (w' : World),
  Manager.createMCPTools server_up (with_flag true) (world None) = (Normal r, w') ∧
  Manager.enabledSources r = [] ∧ Manager.tools r = ∅ ∧
  console w' = [] ∧
  since (world None) w' = [CallIsContext7Available (Some {| apiKey := None |}); ReadEnv] ∧
  (∀ c, CallCreateContext7Tools c ∉ since (world None) w').
Proof.
apply (createMCPTools_unresolvable_request_is_skipped server_up (with_flag true)
         (world None)).
- left. reflexivity.
- eexists _, _. reflexivity.
Defined.

Lemma createMCPTools_autodetects_absent_entry_witness :
(∃ c, CallCreateContext7Tools c ∈
        since (world (Some "ctx7-key"))
          (snd (Manager.createMCPTools server_up None (world (Some "ctx7-key")))))
↔ fst (Context7.isContext7Available None (world (Some "ctx7-key"))) = Normal true.
Proof.
apply (createMCPTools_autodetects_absent_entry server_up None (world (Some "ctx7-key"))).
reflexivity.
Defined.

Lemma explicit_key_is_independent_of_environment_witness :
Context7.getApiKey (Some {| apiKey := Some "x" |}) (with_env (Some "other") (world None))
  = (Normal "x", with_env (Some "other") (world None)) ∧
Context7.getApiKey (Some {| apiKey := Some "x" |}) (with_env None (world None))
  = (Normal "x", with_env None (world None)).
Proof.
destruct (explicit_key_is_independent_of_environment server_up) as [Hruns _].
destruct (Hruns "x" (world None) (Some "other") None) as [Hkey _].
- done.
- exact Hkey.
Defined.

(** The scenarios of the specification, run. *)
Example scenario_activation_fails :
observe (Manager.createMCPTools server_down (with_key "x") (world None)) =
  (Some ([], []),
   [("Failed to connect to Context7 MCP server:", ExternalError "spawn npx ENOENT")],
   [CallIsContext7Available (Some {| apiKey := Some "x" |});
    CallCreateContext7Tools (Some {| apiKey := Some "x" |});
    CallCreateMCPClient (npx_context7 "x")]).
Proof. reflexivity. Qed.

Example scenario_autodetect :
observe (Manager.createMCPTools server_up None (world (Some "ctx7-key"))) =
  (Some (["context7"],
         [("get-library-docs", "docs"); ("resolve-library-id", "resolve")]),
   [],
   [CallIsContext7Available None; ReadEnv; CallIsContext7Available None; ReadEnv;
    CallCreateContext7Tools None; ReadEnv;
    CallCreateMCPClient (npx_context7 "ctx7-key"); CallClientTools 7]).
Proof. reflexivity. Qed.

Example scenario_empty_explicit_key :
observe (Manager.createMCPTools server_up (with_key "") (world (Some "ctx7-key"))) =
  (Some ([], []), [], [CallIsContext7Available (Some {| apiKey := Some "" |})]).
Proof. reflexivity. Qed.


(** * Further properties of the code *)

(** ** [createContext7Tools] *)

Section ActivationFurther.
Import Context7.
Context {Tool : Type}.
Context (mcp_server : Transport → Completion (MCPClient Tool)).

Lemma getApiKey_fst c w : fst (getApiKey c w) = usable (candidate c (process_env w)).
Proof. by rewrite getApiKey_run. Qed.

(** What [createContext7Tools] computes for any options, callback included. *)
Lemma createContext7Tools_run (options : option (Context7ToolsOptions)) (w : World) :
  createContext7Tools mcp_server options w =
    let c := options ≫= config in
    match usable (candidate c (process_env w)) with
    | Thrown e => (Thrown e, looked_up c (record_call (CallCreateContext7Tools c) w))
    | Normal key =>
        match mcp_server (npx_context7 key) with
        | Thrown e => (Thrown e, connected c key w)
        | Normal client =>
            match match options ≫= onReady with Some f => f | None => ret () end
                    (connected c key w) with
            | (Thrown e, w') => (Thrown e, w')
            | (Normal _, w') =>
                match tools_settles client with
                | Thrown e => (Thrown e, record_call (CallClientTools (client_id client)) w')
                | Normal t =>
                    (Normal {| tools := t; close := client_close client |},
                     record_call (CallClientTools (client_id client)) w')
                end
            end
        end
    end.
Proof.
  unfold createContext7Tools, experimental_createMCPClient, client_tools, connected.
  unfold bind at 1, log at 1. unfold bind at 1. rewrite getApiKey_run.
  cbn [process_env record_call]. cbv zeta.
  destruct (usable _) as [key|e]; [|done].
  fold (npx_context7 key).
  unfold bind at 1, bind at 1, log at 1, settle at 1.
  destruct (mcp_server _) as [client|e]; [|done].
  unfold bind at 1.
  destruct (match options ≫= onReady with Some f => f | None => ret () end _)
    as [[[]|e] w']; [|done].
  unfold bind, log, settle, ret.
  by destruct (tools_settles client).
Qed.

(** The successful run, for the properties of the client and of the manager. *)
Lemma createContext7Tools_returns_client_tools_aux
    (c : option Context7Config) (w : World) (key : string)
    (client : MCPClient Tool) (t : gmap string Tool) :
  fst (getApiKey c w) = Normal key →
  mcp_server (npx_context7 key) = Normal client →
  tools_settles client = Normal t →
  ∃ (res : Context7ToolsResult Tool) (w' : World),
    createContext7Tools mcp_server (Some {| config := c; onReady := None |}) w
      = (Normal res, w') ∧
    tools res = t ∧
    close res = client_close client ∧
    console w' = console w.
Proof.
  intros Hkey Hsrv Htools. rewrite getApiKey_fst in Hkey.
  pose proof (createContext7Tools_console mcp_server c w) as Hconsole.
  rewrite createContext7Tools_run in Hconsole |- *. cbv zeta in *.
  cbn [mbind option_bind config onReady] in *.
  rewrite Hkey, Hsrv in *. unfold ret at 1. unfold ret at 1 in Hconsole.
  rewrite Htools in *. by eexists _, _.
Qed.

(** X1.  When no key can be resolved, [createContext7Tools] throws
    [Context7ApiKeyError] before anything else happens: the only calls are
    its own and the key lookup, no client is created and the [onReady]
    callback, whatever it is, is not run. *)
Theorem createContext7Tools_without_key_never_connects
    (options : option Context7ToolsOptions) (w : World) :
  (∃ e w1, getApiKey (options ≫= config) w = (Thrown e, w1)) →
  createContext7Tools mcp_server options w =
    (Thrown Context7ApiKeyError,
     looked_up (options ≫= config)
       (record_call (CallCreateContext7Tools (options ≫= config)) w)) ∧
  since w (snd (createContext7Tools mcp_server options w)) =
    CallCreateContext7Tools (options ≫= config) :: key_calls (options ≫= config).
Proof.
  intros (e & w1 & Hkey). rewrite getApiKey_run in Hkey. injection Hkey as Hkey _.
  rewrite createContext7Tools_run. cbv zeta. rewrite Hkey.
  apply usable_thrown in Hkey as [-> _]. split; [done|].
  apply since_app. cbn [snd]. rewrite looked_up_calls. cbn [calls record_call].
  by rewrite <- app_assoc.
Qed.

(** X2.  [createContext7Tools] (called without [onReady]) never calls
    [client.close()], however it ends: a client that was created stays open
    also when the listing of its tools fails, and only the returned [close]
    can close it. *)
Theorem createContext7Tools_never_closes_client
    (c : option Context7Config) (w : World) (id : nat) :
  CallClientClose id ∉
    since w (snd (createContext7Tools mcp_server
                    (Some {| config := c; onReady := None |}) w)).
Proof.
  rewrite (since_app _ _ _ (createContext7Tools_calls mcp_server c w)).
  unfold key_calls, connect_calls. intros Hin.
  destruct (c ≫= apiKey), (usable _) as [key|]; [destruct (mcp_server _)| |destruct (mcp_server _)|];
    cbn in Hin;
    repeat (apply elem_of_cons in Hin as [Hin|Hin]; [done|]);
    by apply elem_of_nil in Hin.
Qed.

(** X3.  When the key resolves, the client is created and its tools are
    listed, [createContext7Tools] returns exactly the tools of the client,
    and the returned [close], run in any world, calls [client.close()] of
    that client once and settles as that call does. *)
Theorem createContext7Tools_returns_client_tools
    (c : option Context7Config) (w : World) (key : string)
    (client : MCPClient Tool) (t : gmap string Tool) :
  fst (getApiKey c w) = Normal key →
  mcp_server (npx_context7 key) = Normal client →
  tools_settles client = Normal t →
  ∃ (res : Context7ToolsResult Tool) (w' : World),
    createContext7Tools mcp_server (Some {| config := c; onReady := None |}) w
      = (Normal res, w') ∧
    tools res = t ∧
    (∀ w0, close res w0 =
             (close_settles client, record_call (CallClientClose (client_id client)) w0)) ∧
    since w w' = CallCreateContext7Tools c :: key_calls c ++
                 [CallCreateMCPClient (npx_context7 key);
                  CallClientTools (client_id client)].
Proof.
  intros Hkey Hsrv Htools. rewrite getApiKey_fst in Hkey.
  pose proof (createContext7Tools_calls mcp_server c w) as Hcalls.
  rewrite createContext7Tools_run in Hcalls |- *. cbv zeta in *.
  cbn [mbind option_bind config onReady] in *.
  rewrite Hkey in *. unfold connect_calls in Hcalls. rewrite Hsrv in *.
  unfold ret at 1. unfold ret at 1 in Hcalls. rewrite Htools in *.
  eexists _, _. split; [done|]. split; [done|]. split; [done|].
  by apply since_app.
Qed.

(** X4.  The [onReady] callback is not run before the client exists: when
    the key cannot be resolved or the creation of the client fails, the run
    with a callback is the run without one. *)
Theorem createContext7Tools_onReady_needs_client
    (c : option Context7Config) (f : Js unit) (w : World) :
  ((∃ e, fst (getApiKey c w) = Thrown e) ∨
   (∃ key e, fst (getApiKey c w) = Normal key ∧
             mcp_server (npx_context7 key) = Thrown e)) →
  createContext7Tools mcp_server (Some {| config := c; onReady := Some f |}) w =
  createContext7Tools mcp_server (Some {| config := c; onReady := None |}) w.
Proof.
  rewrite getApiKey_fst, !createContext7Tools_run. cbv zeta.
  cbn [mbind option_bind config onReady].
  intros [[e He]|(key & e & Hkey & Hsrv)].
  - by rewrite He.
  - by rewrite Hkey, Hsrv.
Qed.

(** X5.  The callback runs once the client exists and before the tools are
    listed: when it throws, [createContext7Tools] throws the same error in
    the world the callback left, so [client.tools()] is never called and the
    client is not closed. *)
Theorem createContext7Tools_onReady_throw_aborts
    (c : option Context7Config) (f : Js unit) (w w' : World) (key : string)
    (client : MCPClient Tool) (e : JsError) :
  fst (getApiKey c w) = Normal key →
  mcp_server (npx_context7 key) = Normal client →
  f (connected c key w) = (Thrown e, w') →
  createContext7Tools mcp_server (Some {| config := c; onReady := Some f |}) w
    = (Thrown e, w').
Proof.
  rewrite getApiKey_fst, createContext7Tools_run. cbv zeta.
  cbn [mbind option_bind config onReady].
  intros -> -> ->. done.
Qed.
End ActivationFurther.

(** ** [createMCPTools] *)

Section ManagerFurther.
Import Manager.
Context {Tool : Type}.
Context (mcp_server : Transport → Completion (Context7.MCPClient Tool)).

Lemma is_false_spec (entry : option Context7Entry) :
  is_false entry = false ↔ entry ≠ Some (Flag false).
Proof. destruct entry as [[[]|]|]; cbn; split; congruence. Qed.

(** The attempt ends in the same way after the probes as before them. *)
Lemma attempt_fst config b w :
  fst (Context7.createContext7Tools mcp_server (options_of config) (decided config b w)) =
  fst (Context7.createContext7Tools mcp_server (options_of config) w).
Proof.
  unfold options_of. by rewrite !createContext7Tools_fst, decided_env.
Qed.

Lemma attempt_fst_available config w res :
  fst (Context7.createContext7Tools mcp_server (options_of config) w) = Normal res →
  is_normal (usable (candidate (context7Config config) (process_env w))) = true.
Proof.
  unfold options_of. rewrite createContext7Tools_fst. by destruct (usable _).
Qed.

(** X6.  The enabled sources tell whether the activation succeeded.  A run
    of [createMCPTools] ends in one of two ways: either ["context7"] is the
    only enabled source, the entry is not [false], [createContext7Tools]
    succeeds on the manager's options and the tools of the result are its
    tools; or nothing is enabled, there is no tool, [close] does nothing, and
    the entry is [false] or [createContext7Tools] throws on these options. *)
Theorem createMCPTools_enabled_iff_activation_succeeds
    (config : option MCPToolsManagerConfig) (w : World) :
  ∃ (r : MCPToolsResult Tool) (w' : World),
    createMCPTools mcp_server config w = (Normal r, w') ∧
    ((enabledSources r = ["context7"] ∧
      config ≫= context7 ≠ Some (Flag false) ∧
      ∃ res, fst (Context7.createContext7Tools mcp_server (options_of config) w)
               = Normal res ∧
             tools r = Context7.tools res ∧
             close r = close_all [Context7.close res]) ∨
     (enabledSources r = [] ∧ tools r = ∅ ∧
      (∀ w0, close r w0 = (Normal (), w0)) ∧
      (config ≫= context7 = Some (Flag false) ∨
       ∃ e, fst (Context7.createContext7Tools mcp_server (options_of config) w)
              = Thrown e))).
Proof.
  rewrite createMCPTools_run.
  destruct (is_false _) eqn:Hf.
  { eexists _, _. split; [done|]. right. repeat split; try done.
    left. destruct (config ≫= context7) as [[[]|]|]; done. }
  apply is_false_spec in Hf. cbv zeta.
  destruct (is_normal _) eqn:Ha.
  - pose proof (attempt_fst config true w) as Hfst.
    destruct (Context7.createContext7Tools _ _ (decided _ _ _)) as [[res|e] w2];
      cbn [fst] in Hfst; eexists _, _; (split; [done|]).
    + left. split; [done|]. split; [done|]. exists res. split; [done|].
      split; [|done]. cbn. unfold Object_assign. by rewrite (right_id_L ∅ (∪)).
    + right. repeat split; try done. right. by exists e.
  - eexists _, _. split; [done|]. right. repeat split; try done. right.
    unfold options_of. rewrite createContext7Tools_fst.
    destruct (usable _) as [|e]; [done|]. by exists e.
Qed.

(** X7.  End to end: when the entry is not [false], the key resolves, the
    client is created and its tools are listed, [createMCPTools] returns
    exactly the tools of the client with ["context7"] enabled, writes nothing
    to the console, and its [close], run in any world, calls
    [client.close()] of that client once. *)
Theorem createMCPTools_returns_client_tools
    (config : option MCPToolsManagerConfig) (w : World) (key : string)
    (client : Context7.MCPClient Tool) (t : gmap string Tool) :
  config ≫= context7 ≠ Some (Flag false) →
  fst (Context7.getApiKey (context7Config config) w) = Normal key →
  mcp_server (npx_context7 key) = Normal client →
  Context7.tools_settles client = Normal t →
  ∃ (r : MCPToolsResult Tool) (w' : World),
    createMCPTools mcp_server config w = (Normal r, w') ∧
    tools r = t ∧ enabledSources r = ["context7"] ∧
    console w' = console w ∧
    (∀ w0, since w0 (snd (close r w0)) = [CallClientClose (Context7.client_id client)]).
Proof.
  intros Hf%is_false_spec Hkey Hsrv Htools.
  rewrite createMCPTools_run, Hf. cbv zeta.
  rewrite getApiKey_fst in Hkey. rewrite Hkey. cbn [is_normal].
  destruct (createContext7Tools_returns_client_tools_aux mcp_server
              (context7Config config) (decided config true w) key client t)
    as (res & w2 & Hrun & Hres & Hclose & Hconsole); try done.
  { by rewrite getApiKey_fst, decided_env. }
  unfold options_of. rewrite Hrun.
  eexists _, _. split; [done|]. cbn [tools enabledSources close].
  split. { unfold Object_assign. by rewrite (right_id_L ∅ (∪)), Hres. }
  split; [done|]. split. { by rewrite Hconsole, decided_console. }
  intros w0. apply since_app. rewrite close_all_world. cbn [foldl].
  by rewrite Hclose.
Qed.

(** What a run of [createMCPTools] writes to the console. *)
Lemma createMCPTools_console config w :
  console (snd (createMCPTools mcp_server config w)) =
    console w ++
    if is_false (config ≫= context7) then []
    else match fst (Context7.createContext7Tools mcp_server (options_of config) w) with
         | Normal _ => []
         | Thrown e =>
             if is_normal (usable (candidate (context7Config config) (process_env w)))
             then [("Failed to connect to Context7 MCP server:", e)] else []
         end.
Proof.
  rewrite createMCPTools_run.
  destruct (is_false _); [by rewrite app_nil_r|]. cbv zeta.
  destruct (is_normal _) eqn:Ha.
  - pose proof (attempt_fst config true w) as Hfst.
    pose proof (createContext7Tools_console mcp_server (context7Config config)
                  (decided config true w)) as Hconsole.
    fold (options_of config) in Hconsole. rewrite decided_console in Hconsole.
    rewrite <- Hfst.
    destruct (Context7.createContext7Tools _ _ (decided _ _ _)) as [[res|e] w2];
      cbn [fst snd console record_warn] in *; rewrite Hconsole;
      [by rewrite app_nil_r | done].
  - cbn [snd]. rewrite decided_console.
    destruct (fst _); by rewrite app_nil_r.
Qed.

(** X8.  The console gets the warning exactly for a failed attempt: a run of
    [createMCPTools] appends ["Failed to connect to Context7 MCP server:"]
    with the error [e] if and only if the entry is not [false], a key
    resolves and [createContext7Tools] throws [e]; in every other case the
    console is unchanged.  No run writes more than this one line. *)
Theorem createMCPTools_warns_iff_attempt_fails
    (config : option MCPToolsManagerConfig) (w : World) :
  (∀ e,
     console (snd (createMCPTools mcp_server config w)) =
       console w ++ [("Failed to connect to Context7 MCP server:", e)]
     ↔ (config ≫= context7 ≠ Some (Flag false) ∧
        (∃ key, fst (Context7.getApiKey (context7Config config) w) = Normal key) ∧
        fst (Context7.createContext7Tools mcp_server (options_of config) w) = Thrown e)) ∧
  (console (snd (createMCPTools mcp_server config w)) = console w ∨
   ∃ e, console (snd (createMCPTools mcp_server config w)) =
          console w ++ [("Failed to connect to Context7 MCP server:", e)]).
Proof.
  rewrite createMCPTools_console, getApiKey_fst.
  split.
  - intros e. rewrite <- is_false_spec. split.
    + intros Heq%app_inv_head.
      destruct (is_false _); [done|].
      destruct (fst _) as [res|e']; [done|].
      destruct (usable _) as [key|]; cbn [is_normal] in Heq; [|done].
      injection Heq as ->. split; [done|]. split; [by exists key|done].
    + intros (-> & [key ->] & ->). done.
  - destruct (is_false _); [left; by rewrite app_nil_r|].
    destruct (fst _) as [res|e]; [left; by rewrite app_nil_r|].
    destruct (is_normal _); [right; by exists e | left; by rewrite app_nil_r].
Qed.

(** X9.  [createMCPTools] never creates a client without a key: every
    [experimental_createMCPClient] it calls gets the transport
    [npx -y @upstash/context7-mcp --api-key k] where [k] is the non-empty key
    that [getApiKey] resolves for the entry. *)
Theorem createMCPTools_creates_client_only_with_key
    (config : option MCPToolsManagerConfig) (w : World) (t : Transport) :
  CallCreateMCPClient t ∈ since w (snd (createMCPTools mcp_server config w)) →
  ∃ k, k ≠ "" ∧ t = npx_context7 k ∧
       fst (Context7.getApiKey (context7Config config) w) = Normal k.
Proof.
  rewrite createMCPTools_calls, getApiKey_fst. unfold manager_calls.
  destruct (is_false _); [by intros ?%elem_of_nil|]. cbv zeta.
  unfold attempt_calls, probe_calls, key_calls, connect_calls.
  destruct (usable _) as [key|] eqn:Hus; cbn [is_normal].
  - apply usable_normal in Hus as [_ Hne].
    intros Hin. exists key. split; [done|]. split; [|done].
    destruct (is_undefined _), (context7Config config ≫= apiKey),
      (mcp_server (npx_context7 key));
      cbn in Hin;
      repeat (apply elem_of_cons in Hin as [Hin|Hin]; [by simplify_eq|]);
      by apply elem_of_nil in Hin.
  - rewrite andb_false_r, !app_nil_r. intros Hin.
    destruct (context7Config config ≫= apiKey);
      repeat (apply elem_of_cons in Hin as [Hin|Hin]; [done|]);
      by apply elem_of_nil in Hin.
Qed.

(** X10.  A failed listing leaves the client open.  When the entry is not
    [false], the key resolves and the client is created but [client.tools()]
    rejects with [e], [createMCPTools] returns the empty result and warns
    with [e]; the client was created, [client.close()] was not called, and
    the [close] of the result does nothing, so the client is never closed. *)
Theorem createMCPTools_failed_listing_leaves_client_open
    (config : option MCPToolsManagerConfig) (w : World) (key : string)
    (client : Context7.MCPClient Tool) (e : JsError) :
  config ≫= context7 ≠ Some (Flag false) →
  fst (Context7.getApiKey (context7Config config) w) = Normal key →
  mcp_server (npx_context7 key) = Normal client →
  Context7.tools_settles client = Thrown e →
  ∃ (r : MCPToolsResult Tool) (w' : World),
    createMCPTools mcp_server config w = (Normal r, w') ∧
    enabledSources r = [] ∧ tools r = ∅ ∧
    console w' = console w ++ [("Failed to connect to Context7 MCP server:", e)] ∧
    CallCreateMCPClient (npx_context7 key) ∈ since w w' ∧
    (∀ id, CallClientClose id ∉ since w w') ∧
    (∀ w0, close r w0 = (Normal (), w0)).
Proof.
  intros Hf Hkey Hsrv Htools.
  assert (fst (Context7.createContext7Tools mcp_server (options_of config) w) = Thrown e)
    as Hthrown.
  { unfold options_of. rewrite createContext7Tools_fst, <- getApiKey_fst, Hkey.
    unfold connect. by rewrite Hsrv, Htools. }
  pose proof (createMCPTools_console config w) as Hconsole.
  pose proof (createMCPTools_calls mcp_server config w) as Hcalls.
  rewrite Hthrown in Hconsole.
  pose proof (attempt_fst config true w) as Hfst. rewrite Hthrown in Hfst.
  pose proof Hf as Hf'. apply is_false_spec in Hf'.
  pose proof Hkey as Hus. rewrite getApiKey_fst in Hus.
  rewrite createMCPTools_run in Hconsole, Hcalls |- *.
  rewrite Hf', Hus in Hconsole, Hcalls |- *. cbv zeta in *. cbn [is_normal] in *.
  destruct (Context7.createContext7Tools _ _ (decided _ _ _)) as [[res|e'] w2];
    cbn [fst snd] in *; [done|].
  injection Hfst as ->.
  eexists _, _. split; [done|]. split; [done|]. split; [done|].
  split; [done|].
  rewrite Hcalls. unfold manager_calls. rewrite Hf'. cbv zeta.
  rewrite Hus. cbn [is_normal].
  unfold attempt_calls, connect_calls, probe_calls, key_calls.
  rewrite Hus, Hsrv.
  split; [|split; [|done]].
  - rewrite !elem_of_app. right. right. rewrite elem_of_cons, elem_of_app.
    right. right. apply elem_of_cons. by left.
  - intros id Hin.
    destruct (is_undefined _), (context7Config config ≫= apiKey);
      cbn in Hin;
      repeat (apply elem_of_cons in Hin as [Hin|Hin]; [done|]);
      by apply elem_of_nil in Hin.
Qed.


(** X12.  An explicit key shields the run from the environment: when the
    entry is a settings record with an [apiKey] (empty or not), the run of
    [createMCPTools] in a world with another value of [CONTEXT7_API_KEY] has
    the same completion and result and leaves the same world but for that
    value; the environment is never read. *)
Theorem createMCPTools_explicit_key_ignores_environment
    (config : option MCPToolsManagerConfig) (k : string)
    (env : option string) (w : World) :
  config ≫= context7 = Some (Settings {| apiKey := Some k |}) →
  createMCPTools mcp_server config (with_env env w) =
    (fst (createMCPTools mcp_server config w),
     with_env env (snd (createMCPTools mcp_server config w))) ∧
  ReadEnv ∉ since w (snd (createMCPTools mcp_server config w)).
Proof.
  intros Hentry. split.
  - rewrite !createMCPTools_run. unfold options_of.
    rewrite !createContext7Tools_run.
    unfold decided, probe, looked_up, connected, candidate, context7Config.
    rewrite Hentry. cbn.
    case_bool_decide; cbn; [reflexivity|].
    destruct (mcp_server _) as [client|]; cbn; [|reflexivity].
    destruct (Context7.tools_settles client); reflexivity.
  - rewrite createMCPTools_calls. unfold manager_calls, context7Config.
    rewrite Hentry. cbn.
    unfold attempt_calls, probe_calls, key_calls, connect_calls. cbn.
    intros Hin.
    case_bool_decide; cbn in Hin; [|destruct (mcp_server _)];
      repeat (apply elem_of_cons in Hin as [Hin|Hin]; [done|]);
      by apply elem_of_nil in Hin.
Qed.

(** X13.  An explicit empty key is not replaced by the key of the
    environment: when the entry is a settings record whose [apiKey] is the
    empty string, [createMCPTools] enables nothing, whatever the environment
    holds; its only call is one availability probe. *)
Theorem createMCPTools_empty_key_enables_nothing
    (config : option MCPToolsManagerConfig) (w : World) :
  config ≫= context7 = Some (Settings {| apiKey := Some "" |}) →
  ∃ r : MCPToolsResult Tool,
    createMCPTools mcp_server config w =
      (Normal r,
       record_call (CallIsContext7Available (Some {| apiKey := Some "" |})) w) ∧
    enabledSources r = [] ∧ tools r = ∅.
Proof.
  intros Hentry. rewrite createMCPTools_run.
  unfold decided, probe, looked_up, candidate, context7Config.
  rewrite Hentry. cbn. by eexists.
Qed.

(** X14.  Auto-detection agrees with [getAvailableMCPTools]: with no entry
    for Context7, every enabled source of [createMCPTools] is reported by
    [getAvailableMCPTools] in the same world, and the two lists are equal
    when the MCP server gives a client with a listing for every transport. *)
Theorem createMCPTools_autodetect_agrees_with_getAvailableMCPTools
    (config : option MCPToolsManagerConfig) (w : World) :
  config ≫= context7 = None →
  ∃ (r : MCPToolsResult Tool) (w' : World) (available : list string) (w'' : World),
    createMCPTools mcp_server config w = (Normal r, w') ∧
    getAvailableMCPTools w = (Normal available, w'') ∧
    (∀ name, name ∈ enabledSources r → name ∈ available) ∧
    ((∀ t, ∃ client tl, mcp_server t = Normal client ∧
                        Context7.tools_settles client = Normal tl) →
     enabledSources r = available).
Proof.
  intros Hentry.
  unfold getAvailableMCPTools, bind at 1, ret. rewrite isContext7Available_run.
  rewrite createMCPTools_run. unfold options_of.
  rewrite createContext7Tools_run.
  unfold context7Config. rewrite Hentry. cbn [is_false]. cbv zeta.
  cbn [mbind option_bind Context7.config Context7.onReady].
  rewrite decided_env.
  destruct (usable _) as [key|]; cbn [is_normal app].
  - destruct (mcp_server (npx_context7 key)) as [client|] eqn:Hsrv.
    + unfold ret at 1.
      destruct (Context7.tools_settles client) eqn:Htl;
        eexists _, _, _, _; (split; [done|]); (split; [done|]);
        cbn [enabledSources nothing_enabled].
      * done.
      * split; [by intros name ?%elem_of_nil|]. intros Hup.
        destruct (Hup (npx_context7 key)) as (client' & tl & ? & ?). congruence.
    + eexists _, _, _, _. split; [done|]. split; [done|].
      cbn [enabledSources nothing_enabled].
      split; [by intros name ?%elem_of_nil|]. intros Hup.
      destruct (Hup (npx_context7 key)) as (client' & tl & ? & ?). congruence.
  - eexists _, _, _, _. split; [done|]. split; [done|]. done.
Qed.
End ManagerFurther.

(** ** The combined close, further *)

Section ClosingFurther.
Import Manager.
Context {Tool : Type}.

Lemma map_call_clients (clients : list (Context7.MCPClient Tool)) (w : World) :
  fst (map_call (Context7.client_close <$> clients) w) =
    Normal (Context7.close_settles <$> clients).
Proof.
  revert w. induction clients as [|client rest IH]; intros w; [done|].
  cbn [fmap list_fmap map_call]. unfold bind at 1, call_async.
  unfold Context7.client_close at 1, bind at 1, log, settle.
  unfold bind at 1.
  specialize (IH (record_call (CallClientClose (Context7.client_id client)) w)).
  destruct (map_call _ _) as [[ps|e] w2]; cbn [fst] in IH; [|done].
  injection IH as ->. done.
Qed.

Lemma Promise_all_normal {A} (promises : list (Completion A)) :
  is_normal (Promise_all promises) = true ↔
  ∀ p, p ∈ promises → is_normal p = true.
Proof.
  induction promises as [|[a|e] rest IH]; cbn [Promise_all].
  - split; [|done]. by intros _ p ?%elem_of_nil.
  - destruct (Promise_all rest); cbn [is_normal] in *.
    + split; [|done]. intros _ p [->|Hin]%elem_of_cons; [done|]. by apply IH.
    + split; [done|]. intros Hall. apply IH. intros p Hin. apply Hall.
      apply elem_of_cons. by right.
  - split; [done|]. intros Hall. apply (Hall (Thrown e)). apply elem_of_cons. by left.
Qed.

Lemma Promise_all_thrown {A} (promises : list (Completion A)) (e : JsError) :
  Promise_all promises = Thrown e → Thrown e ∈ promises.
Proof.
  induction promises as [|[a|e'] rest IH]; cbn [Promise_all]; [done| |].
  - destruct (Promise_all rest); [done|]. intros [= ->].
    apply elem_of_cons. right. by apply IH.
  - intros [= ->]. apply elem_of_cons. by left.
Qed.

Lemma close_all_fst (clients : list (Context7.MCPClient Tool)) (w : World) :
  fst (close_all (Context7.client_close <$> clients) w) =
    match Promise_all (Context7.close_settles <$> clients) with
    | Normal _ => Normal ()
    | Thrown e => Thrown e
    end.
Proof.
  unfold close_all, bind, settle, ret.
  pose proof (map_call_clients clients w) as Hps.
  destruct (map_call _ _) as [[ps|e] w2]; cbn [fst] in Hps; [|done].
  injection Hps as ->. by destruct (Promise_all _).
Qed.

(** X15.  The combined close reports a failure and only a failure: on any
    list of retained client closes it completes normally exactly when
    [client.close()] of every client does, and when it throws, the error is
    the one [client.close()] of a retained client failed with. *)
Theorem close_all_succeeds_iff_every_close_succeeds
    (clients : list (Context7.MCPClient Tool)) (w : World) :
  (fst (close_all (Context7.client_close <$> clients) w) = Normal () ↔
   ∀ client, client ∈ clients → Context7.close_settles client = Normal ()) ∧
  (∀ e, fst (close_all (Context7.client_close <$> clients) w) = Thrown e →
        ∃ client, client ∈ clients ∧ Context7.close_settles client = Thrown e).
Proof.
  rewrite close_all_fst. split.
  - pose proof (Promise_all_normal (Context7.close_settles <$> clients)) as Hall.
    destruct (Promise_all _); cbn [is_normal] in Hall; split; try done.
    + intros _ client Hin.
      assert (is_normal (Context7.close_settles client) = true) as Hn.
      { apply Hall; [done|]. apply list_elem_of_fmap. by exists client. }
      by destruct (Context7.close_settles client) as [[]|].
    + intros Hevery. assert (false = true); [|done]. apply Hall.
      intros p (client & -> & Hin)%list_elem_of_fmap. by rewrite (Hevery client Hin).
  - intros e He.
    destruct (Promise_all _) as [|e'] eqn:Hp; [done|]. injection He as ->.
    apply Promise_all_thrown in Hp.
    apply list_elem_of_fmap in Hp as (client & Hclient & Hin). by exists client.
Qed.

(** X16.  The combined close is not one-shot: run a second time, in the
    world the first run left, it calls [client.close()] of every retained
    client again, whatever the first calls settled with. *)
Theorem close_all_twice_closes_twice
    (clients : list (Context7.MCPClient Tool)) (w : World) :
  let fns := Context7.client_close <$> clients in
  let closed := (λ client, CallClientClose (Context7.client_id client)) <$> clients in
  since w (snd (close_all fns (snd (close_all fns w)))) = closed ++ closed.
Proof.
  cbv zeta. apply since_app.
  by rewrite !close_all_world, !client_close_calls, <- app_assoc.
Qed.
End ClosingFurther.

(** ** The further properties at concrete inputs *)

Lemma createContext7Tools_without_key_never_connects_witness :
  Context7.createContext7Tools server_up None (world None) =
    (Thrown Context7ApiKeyError,
     {| process_env := None; console := [];
        calls := [CallCreateContext7Tools None; ReadEnv] |}) ∧
  since (world None) (snd (Context7.createContext7Tools server_up None (world None))) =
    [CallCreateContext7Tools None; ReadEnv].
Proof.
  apply (createContext7Tools_without_key_never_connects server_up None (world None)).
  eexists _, _. reflexivity.
Defined.

Lemma createContext7Tools_returns_client_tools_witness :
  ∃ (res : Context7.Context7ToolsResult string) (w' : World),
    Context7.createContext7Tools server_up
      (Some {| Context7.config := Some {| apiKey := Some "x" |};
               Context7.onReady := None |}) (world None) = (Normal res, w') ∧
    Context7.tools res = docs ∧
    (∀ w0, Context7.close res w0 = (Normal (), record_call (CallClientClose 7) w0)) ∧
    since (world None) w' =
      [CallCreateContext7Tools (Some {| apiKey := Some "x" |});
       CallCreateMCPClient (npx_context7 "x"); CallClientTools 7].
Proof.
  apply (createContext7Tools_returns_client_tools server_up
           (Some {| apiKey := Some "x" |}) (world None) "x" good_client docs);
    reflexivity.
Defined.

Lemma createContext7Tools_onReady_needs_client_witness :
  Context7.createContext7Tools server_down
    (Some {| Context7.config := Some {| apiKey := Some "x" |};
             Context7.onReady := Some ready_throws |}) (world None) =
  Context7.createContext7Tools server_down
    (Some {| Context7.config := Some {| apiKey := Some "x" |};
             Context7.onReady := None |}) (world None).
Proof.
  apply (createContext7Tools_onReady_needs_client server_down
           (Some {| apiKey := Some "x" |}) ready_throws (world None)).
  right. eexists _, _. split; reflexivity.
Defined.

Lemma createContext7Tools_onReady_throw_aborts_witness :
  Context7.createContext7Tools server_up
    (Some {| Context7.config := Some {| apiKey := Some "x" |};
             Context7.onReady := Some ready_throws |}) (world None) =
    (Thrown (ExternalError "onReady failed"),
     {| process_env := None; console := [];
        calls := [CallCreateContext7Tools (Some {| apiKey := Some "x" |});
                  CallCreateMCPClient (npx_context7 "x")] |}).
Proof.
  apply (createContext7Tools_onReady_throw_aborts server_up
           (Some {| apiKey := Some "x" |}) ready_throws (world None) _ "x" good_client);
    reflexivity.
Defined.

Lemma createMCPTools_returns_client_tools_witness :
  ∃ (r : Manager.MCPToolsResult string) (w' : World),
    Manager.createMCPTools server_up (with_flag true) (world (Some "ctx7-key"))
      = (Normal r, w') ∧
    Manager.tools r = docs ∧ Manager.enabledSources r = ["context7"] ∧
    console w' = [] ∧
    (∀ w0, since w0 (snd (Manager.close r w0)) = [CallClientClose 7]).
Proof.
  apply (createMCPTools_returns_client_tools server_up (with_flag true)
           (world (Some "ctx7-key")) "ctx7-key" good_client docs);
    [done|reflexivity..].
Defined.

Lemma createMCPTools_creates_client_only_with_key_witness :
  ∃ k, k ≠ "" ∧ npx_context7 "ctx7-key" = npx_context7 k ∧
       fst (Context7.getApiKey (Manager.context7Config None) (world (Some "ctx7-key")))
         = Normal k.
Proof.
  apply (createMCPTools_creates_client_only_with_key server_up None
           (world (Some "ctx7-key")) (npx_context7 "ctx7-key")).
  assert (since (world (Some "ctx7-key"))
            (snd (Manager.createMCPTools server_up None (world (Some "ctx7-key")))) =
          [CallIsContext7Available None; ReadEnv; CallIsContext7Available None; ReadEnv;
           CallCreateContext7Tools None; ReadEnv;
           CallCreateMCPClient (npx_context7 "ctx7-key"); CallClientTools 7]) as ->
    by reflexivity.
  repeat first [apply list_elem_of_here | apply list_elem_of_further].
Defined.

Lemma createMCPTools_failed_listing_leaves_client_open_witness :
  ∃ (r : Manager.MCPToolsResult string) (w' : World),
    Manager.createMCPTools server_mute (with_key "x") (world None) = (Normal r, w') ∧
    Manager.enabledSources r = [] ∧ Manager.tools r = ∅ ∧
    console w' = [("Failed to connect to Context7 MCP server:",
                   ExternalError "tools/list timed out")] ∧
    CallCreateMCPClient (npx_context7 "x") ∈ since (world None) w' ∧
    (∀ id, CallClientClose id ∉ since (world None) w') ∧
    (∀ w0, Manager.close r w0 = (Normal (), w0)).
Proof.
  apply (createMCPTools_failed_listing_leaves_client_open server_mute (with_key "x")
           (world None) "x" mute_client (ExternalError "tools/list timed out"));
    [done|reflexivity..].
Defined.

Lemma createMCPTools_explicit_key_ignores_environment_witness :
  Manager.createMCPTools server_up (with_key "x") (with_env (Some "other") (world None)) =
    (fst (Manager.createMCPTools server_up (with_key "x") (world None)),
     with_env (Some "other")
       (snd (Manager.createMCPTools server_up (with_key "x") (world None)))) ∧
  ReadEnv ∉ since (world None)
              (snd (Manager.createMCPTools server_up (with_key "x") (world None))).
Proof.
  apply (createMCPTools_explicit_key_ignores_environment server_up (with_key "x") "x"
           (Some "other") (world None)).
  reflexivity.
Defined.

Lemma createMCPTools_empty_key_enables_nothing_witness :
  ∃ r : Manager.MCPToolsResult string,
    Manager.createMCPTools server_up (with_key "") (world (Some "ctx7-key")) =
      (Normal r,
       record_call (CallIsContext7Available (Some {| apiKey := Some "" |}))
         (world (Some "ctx7-key"))) ∧
    Manager.enabledSources r = [] ∧ Manager.tools r = ∅.
Proof.
  apply (createMCPTools_empty_key_enables_nothing server_up (with_key "")
           (world (Some "ctx7-key"))).
  reflexivity.
Defined.

Lemma createMCPTools_autodetect_agrees_with_getAvailableMCPTools_witness :
  ∃ (r : Manager.MCPToolsResult string) (w' : World)
    (available : list string) (w'' : World),
    Manager.createMCPTools server_up None (world (Some "ctx7-key")) = (Normal r, w') ∧
    Manager.getAvailableMCPTools (world (Some "ctx7-key")) = (Normal available, w'') ∧
    (∀ name, name ∈ Manager.enabledSources r → name ∈ available) ∧
    ((∀ t, ∃ client tl, server_up t = Normal client ∧
                        Context7.tools_settles client = Normal tl) →
     Manager.enabledSources r = available).
Proof.
  apply (createMCPTools_autodetect_agrees_with_getAvailableMCPTools server_up None
           (world (Some "ctx7-key"))).
  reflexivity.
Defined.
